(** * rmm.py: the handle-tracked device memory manager

    A shallow embedding of [python/rmm/rmm.py].  Python functions that
    mutate shared objects or call into [librmm], Numba or CuPy are
    written in a small state-and-exception monad over a [World] that
    holds the Python heap (the registry dictionaries), the state of the
    external collaborators and the list of calls made into them. *)

From Stdlib Require Import ZArith Lia Strings.Byte.
From stdpp Require Import gmap strings list.

Open Scope Z_scope.

(** ** Python exceptions and outcomes *)

Inductive exn : Type :=
| KeyError (key : Z)
| RuntimeError (msg : string)
| ModuleNotFoundError (msg : string)
| MemoryError (msg : string)
| RMMError (errcode : Z) (msg : string)
| AssertionError (key : Z).

Inductive outcome (A : Type) : Type :=
| Return (a : A)
| Raise (e : exn).
Arguments Return {A} a.
Arguments Raise {A} e.

(** ** Data *)

(** [class rmm_allocation_mode(IntEnum)] *)
Inductive rmm_allocation_mode : Type :=
| CudaDefaultAllocation
| PoolAllocation
| CudaManagedMemory.

Definition mode_value (m : rmm_allocation_mode) : Z :=
  match m with
  | CudaDefaultAllocation => 0
  | PoolAllocation => 1
  | CudaManagedMemory => 2
  end.

(** The [devices] argument of [_initialize]: [None], an [int] or a list. *)
Inductive devices_arg : Type :=
| DevNone
| DevInt (d : Z)
| DevList (l : list Z).

(** A [librmm.DeviceBuffer]: the fields this module reads. *)
Record DeviceBuffer : Type := mkDeviceBuffer {
  db_ptr : Z;
  db_size : Z;
  db_stream : Z
}.

(** [ctypes.c_uint64(n).value] *)
Definition c_uint64 (n : Z) : Z := n mod 2 ^ 64.

(** Python object references; a registry is a dictionary object on the
    heap, shared by the manager and by every finalizer made for it. *)
Definition ref : Type := nat.

(** The closure returned by [_make_finalizer]: it captures the handle
    value and a reference to the registry, not the buffer. *)
Record Finalizer : Type := mkFinalizer {
  fin_handle : Z;
  fin_allocations : ref
}.

Definition Context : Type := Z.

Record DeviceIdentity : Type := mkDeviceIdentity {
  pci_domain_id : Z;
  pci_bus_id : Z;
  pci_device_id : Z
}.

(** [numba.cuda.MemoryPointer]; [mp_owner = None] when the pointer owns
    itself, [Some h] for a view whose owner has handle [h]. *)
Record MemoryPointer : Type := mkMemoryPointer {
  mp_context : Context;
  mp_handle : Z;
  mp_size : Z;
  mp_finalizer : option Finalizer;
  mp_owner : option Z
}.

(** [memory.owner.handle] *)
Definition owner_handle (memory : MemoryPointer) : Z :=
  match mp_owner memory with
  | None => mp_handle memory
  | Some h => h
  end.

(** [memory.device_ctypes_pointer.value] *)
Definition device_ctypes_pointer (memory : MemoryPointer) : Z :=
  mp_handle memory.

(** [numba.cuda.cudadrv.driver.IpcHandle] *)
Record IpcHandle : Type := mkIpcHandle {
  ipc_base : MemoryPointer;
  ipc_handle : list byte;
  ipc_size : Z;
  ipc_source_info : DeviceIdentity;
  ipc_offset : Z
}.

(** [cupy.cuda.UnownedMemory] and [cupy.cuda.memory.MemoryPointer] *)
Record UnownedMemory : Type := mkUnownedMemory {
  um_ptr : Z;
  um_size : Z;
  um_owner : DeviceBuffer;
  um_device_id : Z
}.

Record CupyMemoryPointer : Type := mkCupyMemoryPointer {
  cp_mem : UnownedMemory;
  cp_offset : Z
}.

(** The [RMMNumbaManager] instance: [self.allocations] is a reference
    to the registry created by the base class. *)
Record Manager : Type := mkManager {
  allocations : ref;
  _logging : bool;
  _initialized : bool
}.

(** Calls into the external collaborators, in the order they are made. *)
Inductive call : Type :=
| Call_rmm_initialize (allocation_mode initial_pool_size : Z)
                      (devices : list Z) (logging : bool)
| Call_rmm_finalize
| Call_DeviceBuffer (size stream : Z)
| Call_rmm_getallocationoffset (ptr stream : Z)
| Call_cuIpcGetMemHandle (handle : Z)
| Call_set_memory_manager.

(** ** External collaborators

    [rmm._lib], Numba with the CUDA driver reached through it, and
    CuPy.  Each operation reads and updates a collaborator state [X]
    and either returns or raises.  The state is advanced only by the
    calls this module makes: what the pool allocator does when the last
    reference to a buffer is dropped is not part of it. *)
Class Collaborators (X : Type) : Type := {
  rmm_initialize : Z -> Z -> list Z -> bool -> X -> outcome Z * X;
  rmm_finalize : X -> outcome Z * X;
  DeviceBuffer_new : Z -> Z -> X -> outcome DeviceBuffer * X;
  rmm_getallocationoffset : Z -> Z -> X -> outcome Z * X;
  cuIpcGetMemHandle : Z -> X -> outcome (list byte) * X;
  set_memory_manager : string -> X -> outcome unit * X;
  current_context : X -> Context;
  get_device_identity : X -> DeviceIdentity;
  get_device_id : X -> Z
}.

(** ** The world and the monad *)

Record World (X : Type) : Type := mkWorld {
  heap : gmap ref (gmap Z DeviceBuffer);
  ext : X;
  calls : list call;
  numba : bool;
  cupy : bool
}.
Arguments mkWorld {X}.
Arguments heap {X}.
Arguments ext {X}.
Arguments calls {X}.
Arguments numba {X}.
Arguments cupy {X}.

Definition M (X A : Type) : Type := World X -> outcome A * World X.

Definition ret {X A} (a : A) : M X A := fun w => (Return a, w).

Definition raise {X A} (e : exn) : M X A := fun w => (Raise e, w).

Definition bind {X A B} (c : M X A) (k : A -> M X B) : M X B :=
  fun w =>
    match c w with
    | (Return a, w') => k a w'
    | (Raise e, w') => (Raise e, w')
    end.

Declare Scope py_scope.
Delimit Scope py_scope with py.
Notation "'let*' x ':=' c 'in' k" := (bind c (fun x => k))
  (at level 100, x name, c at level 99, k at level 200) : py_scope.

(** The dictionary a reference denotes. *)
Definition deref {X} (r : ref) (w : World X) : gmap Z DeviceBuffer :=
  default ∅ (heap w !! r).

Definition assign {X} (r : ref) (d : gmap Z DeviceBuffer) (w : World X)
  : World X :=
  mkWorld (<[r := d]> (heap w)) (ext w) (calls w) (numba w) (cupy w).

(** [bool(d)] for a dictionary: [len(d) != 0]. *)
Definition dict_truthy (d : gmap Z DeviceBuffer) : bool :=
  negb (Nat.eqb (size d) 0).

(** [allocations[key] = value].  The registry is the [UniqueDict] the
    base class creates: its [__setitem__] raises [AssertionError] for a
    key that is already present and keeps the old value. *)
Definition dict_setitem {X} (r : ref) (key : Z) (value : DeviceBuffer)
  : M X unit :=
  fun w =>
    match deref r w !! key with
    | Some _ => (Raise (AssertionError key), w)
    | None => (Return tt, assign r (<[key := value]> (deref r w)) w)
    end.

(** [del allocations[key]]: [KeyError] when the key is absent. *)
Definition dict_delitem {X} (r : ref) (key : Z) : M X unit :=
  fun w =>
    match deref r w !! key with
    | Some _ => (Return tt, assign r (delete key (deref r w)) w)
    | None => (Raise (KeyError key), w)
    end.

(** [allocations.clear()] *)
Definition dict_clear {X} (r : ref) : M X unit :=
  fun w => (Return tt, assign r ∅ w).

(** A call into a collaborator: it is recorded, and the collaborator
    state is updated whether the call returns or raises. *)
Definition extern {X A} (c : call) (f : X -> outcome A * X) : M X A :=
  fun w =>
    let '(o, x') := f (ext w) in
    (o, mkWorld (heap w) x' (calls w ++ [c]) (numba w) (cupy w)).

(** A query of collaborator state. *)
Definition query {X A} (f : X -> A) : M X A :=
  fun w => (Return (f (ext w)), w).

(** ** rmm.py *)

Section Rmm.
Context {X : Type} `{Collaborators X}.
Open Scope py_scope.

(** [_initialize(pool_allocator, managed_memory, initial_pool_size,
    devices, logging)] *)
Definition _initialize (pool_allocator managed_memory : bool)
    (initial_pool_size : option Z) (devices : devices_arg)
    (logging : bool) : M X Z :=
  let allocation_mode := 0 in
  let allocation_mode :=
    if pool_allocator
    then Z.lor allocation_mode (mode_value PoolAllocation)
    else allocation_mode in
  let allocation_mode :=
    if managed_memory
    then Z.lor allocation_mode (mode_value CudaManagedMemory)
    else allocation_mode in
  let initial_pool_size :=
    if negb pool_allocator then 0
    else match initial_pool_size with
         | None => 0
         | Some n => if pool_allocator && (n =? 0) then 1 else n
         end in
  let devices :=
    match devices with
    | DevNone => [0]
    | DevInt d => [d]
    | DevList l => l
    end in
  extern (Call_rmm_initialize allocation_mode initial_pool_size devices
                              logging)
         (rmm_initialize allocation_mode initial_pool_size devices logging).

(** [_finalize()] *)
Definition _finalize : M X Z :=
  extern Call_rmm_finalize rmm_finalize.

(** [reinitialize(...)] *)
Definition reinitialize (pool_allocator managed_memory : bool)
    (initial_pool_size : option Z) (devices : devices_arg)
    (logging : bool) : M X Z :=
  let* _ := _finalize in
  _initialize pool_allocator managed_memory initial_pool_size devices
              logging.

(** [_make_finalizer(handle, allocations)] *)
Definition _make_finalizer (handle : Z) (allocations : ref) : Finalizer :=
  mkFinalizer handle allocations.

(** Invoking the closure: [if allocations: del allocations[handle]]. *)
Definition finalizer (f : Finalizer) : M X unit :=
  fun w =>
    if dict_truthy (deref (fin_allocations f) w)
    then dict_delitem (fin_allocations f) (fin_handle f) w
    else (Return tt, w).

(** [RMMNumbaManager.memalloc(self, nbytes, stream)] *)
Definition memalloc (self : Manager) (nbytes stream : Z)
  : M X MemoryPointer :=
  let* buf := extern (Call_DeviceBuffer nbytes stream)
                     (DeviceBuffer_new nbytes stream) in
  let* ctx := query current_context in
  let ptr := c_uint64 (db_ptr buf) in
  let* _ := dict_setitem (allocations self) ptr buf in
  let finalizer := _make_finalizer ptr (allocations self) in
  let mem := mkMemoryPointer ctx ptr nbytes (Some finalizer) None in
  ret mem.

(** The 64-byte [ctypes.c_byte * 64] array after the driver has written
    into it: always 64 elements. *)
Definition c_byte_64 (written : list byte) : list byte :=
  take 64 (written ++ replicate 64 x00).

(** [RMMNumbaManager.get_ipc_handle(self, memory, stream)] *)
Definition get_ipc_handle (self : Manager) (memory : MemoryPointer)
    (stream : Z) : M X IpcHandle :=
  let* written := extern (Call_cuIpcGetMemHandle (owner_handle memory))
                         (cuIpcGetMemHandle (owner_handle memory)) in
  let ipchandle := c_byte_64 written in
  let* source_info := query get_device_identity in
  let ptr := device_ctypes_pointer memory in
  let* offset := extern (Call_rmm_getallocationoffset ptr stream)
                        (rmm_getallocationoffset ptr stream) in
  ret (mkIpcHandle memory ipchandle (mp_size memory) source_info offset).

(** [RMMNumbaManager.reset(self)]: the base class clears
    [self.allocations]. *)
Definition reset (self : Manager) : M X unit :=
  dict_clear (allocations self).

(** [use_rmm_for_numba()] *)
Definition use_rmm_for_numba : M X unit :=
  fun w =>
    if numba w
    then extern Call_set_memory_manager
                (set_memory_manager "RMMNumbaManager") w
    else (Raise (RuntimeError "Numba is not available"), w).

(** [rmm_cupy_allocator(nbytes)] *)
Definition rmm_cupy_allocator (nbytes : Z) : M X CupyMemoryPointer :=
  fun w =>
    if negb (cupy w)
    then (Raise (ModuleNotFoundError "No module named 'cupy'"), w)
    else
      (let* buf := extern (Call_DeviceBuffer nbytes 0)
                          (DeviceBuffer_new nbytes 0) in
       let* dev_id := (if negb (db_ptr buf =? 0) then ret (-1)
                       else query get_device_id) in
       let mem := mkUnownedMemory (db_ptr buf) (db_size buf) buf dev_id in
       let ptr := mkCupyMemoryPointer mem 0 in
       ret ptr) w.

End Rmm.


(** The world right after the [DeviceBuffer] constructor was called. *)
Definition after_DeviceBuffer {X} (nbytes stream : Z) (x' : X)
    (w : World X) : World X :=
  mkWorld (heap w) x' (calls w ++ [Call_DeviceBuffer nbytes stream])
          (numba w) (cupy w).

(** ** Host-framework traffic against one manager *)

Inductive op : Type :=
| Op_memalloc (nbytes stream : Z)
| Op_finalizer (handle : Z)
| Op_reset.

Section Traffic.
Context {X : Type} `{Collaborators X}.

(** One operation on the world, next to the set of handles that have
    been allocated and not yet released.  The set is computed from the
    outcomes of the operations alone: a successful [memalloc] adds the
    handle of the pointer it returns, a finalizer that returns releases
    its handle, [reset] releases everything. *)
Definition step (self : Manager) (s : gset Z * World X) (o : op)
  : gset Z * World X :=
  match o with
  | Op_memalloc nbytes stream =>
      match memalloc self nbytes stream (snd s) with
      | (Return mem, w') => (fst s ∪ {[mp_handle mem]}, w')
      | (Raise _, w') => (fst s, w')
      end
  | Op_finalizer handle =>
      match finalizer (_make_finalizer handle (allocations self)) (snd s) with
      | (Return _, w') => (fst s ∖ {[handle]}, w')
      | (Raise _, w') => (fst s, w')
      end
  | Op_reset => (∅, snd (reset self (snd s)))
  end.

Definition run (self : Manager) (ops : list op) (s : gset Z * World X)
  : gset Z * World X :=
  foldl (step self) s ops.

End Traffic.

(** ** A block pool *)

(** Modelled from the spec: [rmm._lib] and the CUDA driver are not part
    of [rmm.py].  This collaborator follows the interface the
    specification gives for the pool allocator: one reserved block of
    [bp_capacity] bytes starting at [bp_base], served front to back;
    [allocate] fails on exhaustion; [get_allocation_offset] is the
    pointer minus the block start address; [initialize] and [finalize]
    report a status, and a failure status is raised as [RMMError]. *)
Record BlockPool : Type := mkBlockPool {
  bp_base : Z;
  bp_capacity : Z;
  bp_used : Z;
  bp_initialized : bool;
  bp_finalize_status : Z;
  bp_device : Z
}.

(** Modelled from the spec: [initialize] moves the allocator to
    Initialized and reports success. *)
Definition bp_rmm_initialize (mode size : Z) (devices : list Z)
    (logging : bool) (p : BlockPool) : outcome Z * BlockPool :=
  (Return 0,
   mkBlockPool (bp_base p) (bp_capacity p) 0 true (bp_finalize_status p)
               (bp_device p)).

(** Modelled from the spec: [finalize] releases the pool; a failure at
    the allocator boundary is surfaced to the caller. *)
Definition bp_rmm_finalize (p : BlockPool) : outcome Z * BlockPool :=
  if bp_finalize_status p =? 0
  then (Return 0,
        mkBlockPool (bp_base p) (bp_capacity p) 0 false 0 (bp_device p))
  else (Raise (RMMError (bp_finalize_status p) "RMM_ERROR"), p).

(** Modelled from the spec: [allocate(size, stream)] returns the next
    free address of the block, or fails on exhaustion. *)
Definition bp_DeviceBuffer_new (size stream : Z) (p : BlockPool)
  : outcome DeviceBuffer * BlockPool :=
  if (0 <=? size) && (bp_used p + size <=? bp_capacity p)
  then (Return (mkDeviceBuffer (bp_base p + bp_used p) size stream),
        mkBlockPool (bp_base p) (bp_capacity p) (bp_used p + size)
                    (bp_initialized p) (bp_finalize_status p) (bp_device p))
  else (Raise (MemoryError "std::bad_alloc"), p).

(** Modelled from the spec: [get_allocation_offset(device_ptr, stream)]
    is the sub-pointer minus the block start address. *)
Definition bp_rmm_getallocationoffset (ptr stream : Z) (p : BlockPool)
  : outcome Z * BlockPool :=
  (Return (ptr - bp_base p), p).

(** Modelled from the spec: the platform IPC handle is a fixed block of
    64 bytes. *)
Definition bp_cuIpcGetMemHandle (handle : Z) (p : BlockPool)
  : outcome (list byte) * BlockPool :=
  (Return (replicate 64 x01), p).

(** Modelled from the spec: the host framework accepts the memory
    manager it is given. *)
Definition bp_set_memory_manager (manager : string) (p : BlockPool)
  : outcome unit * BlockPool :=
  (Return tt, p).

#[export] Instance BlockPool_collaborators : Collaborators BlockPool := {
  rmm_initialize := bp_rmm_initialize;
  rmm_finalize := bp_rmm_finalize;
  DeviceBuffer_new := bp_DeviceBuffer_new;
  rmm_getallocationoffset := bp_rmm_getallocationoffset;
  cuIpcGetMemHandle := bp_cuIpcGetMemHandle;
  set_memory_manager := bp_set_memory_manager;
  current_context := fun _ => 0;
  get_device_identity := fun p => mkDeviceIdentity 0 0 (bp_device p);
  get_device_id := bp_device
}.

(** Sample data: a pool of 1024 bytes at address 4096, a manager whose
    registry is object 0, and worlds around them. *)
Definition pool0 : BlockPool := mkBlockPool 4096 1024 0 true 0 0.

Definition self0 : Manager := mkManager 0%nat false false.

Definition world_of (d : gmap Z DeviceBuffer) (p : BlockPool)
  : World BlockPool :=
  mkWorld {[ 0%nat := d ]} p [] true true.

Definition buf_at (ptr size : Z) : DeviceBuffer :=
  mkDeviceBuffer ptr size 0.

(** A pool whose next [finalize] reports error status 7, and a process
    in which neither Numba nor CuPy could be imported. *)
Definition pool_failing_finalize : BlockPool :=
  mkBlockPool 4096 1024 0 true 7 0.

Definition world_without_frameworks : World BlockPool :=
  mkWorld ∅ pool0 [] false false.

(** Whether an operation of the host framework is an allocation. *)
Definition is_memalloc (o : op) : bool :=
  match o with
  | Op_memalloc _ _ => true
  | _ => false
  end.

(** Two invocations in a row, as the host framework makes them. *)
Definition then_ {X A B} (c : M X A) (k : M X B) : M X B :=
  bind c (fun _ => k).

(** More sample data: a second manager whose registry is object 1, a
    world holding both registries, and a view 4 bytes into the buffer
    at address 4096. *)
Definition other0 : Manager := mkManager 1%nat false false.

Definition world_of2 (d d' : gmap Z DeviceBuffer) (p : BlockPool)
  : World BlockPool :=
  mkWorld {[ 0%nat := d; 1%nat := d' ]} p [] true true.

Definition view0 : MemoryPointer :=
  mkMemoryPointer 0 4100 8 None (Some 4096).

(** A collaborator over the block pool whose driver refuses to export
    IPC handles. *)
Inductive NoIpc : Type := no_ipc (p : BlockPool).

Definition no_ipc_pool (x : NoIpc) : BlockPool :=
  match x with no_ipc p => p end.

Definition lift_no_ipc {A} (f : BlockPool -> outcome A * BlockPool)
    (x : NoIpc) : outcome A * NoIpc :=
  (fst (f (no_ipc_pool x)), no_ipc (snd (f (no_ipc_pool x)))).

#[export] Instance NoIpc_collaborators : Collaborators NoIpc := {
  rmm_initialize := fun mode size devices logging =>
    lift_no_ipc (bp_rmm_initialize mode size devices logging);
  rmm_finalize := lift_no_ipc bp_rmm_finalize;
  DeviceBuffer_new := fun size stream =>
    lift_no_ipc (bp_DeviceBuffer_new size stream);
  rmm_getallocationoffset := fun ptr stream =>
    lift_no_ipc (bp_rmm_getallocationoffset ptr stream);
  cuIpcGetMemHandle := fun handle x =>
    (Raise (RuntimeError "CUDA_ERROR_INVALID_VALUE"), x);
  set_memory_manager := fun manager =>
    lift_no_ipc (bp_set_memory_manager manager);
  current_context := fun _ => 0;
  get_device_identity := fun x =>
    mkDeviceIdentity 0 0 (bp_device (no_ipc_pool x));
  get_device_id := fun x => bp_device (no_ipc_pool x)
}.

(** ** Basic facts about the heap *)

Section HeapFacts.
Context {X : Type}.
Implicit Types (w : World X) (r : ref) (d : gmap Z DeviceBuffer).

Lemma deref_assign_eq r d w : deref r (assign r d w) = d.
Proof. unfold deref, assign; simpl. by rewrite lookup_insert_eq. Qed.

Lemma deref_assign_ne r r' d w :
  r <> r' -> deref r' (assign r d w) = deref r' w.
Proof.
  intros Hne. unfold deref, assign; simpl. by rewrite lookup_insert_ne.
Qed.

Lemma dict_truthy_false d : dict_truthy d = false <-> d = ∅.
Proof.
  unfold dict_truthy. rewrite negb_false_iff, Nat.eqb_eq.
  apply map_size_empty_iff.
Qed.

Lemma dict_truthy_true d : dict_truthy d = true <-> d <> ∅.
Proof.
  rewrite <- dict_truthy_false. destruct (dict_truthy d); split; congruence.
Qed.

Lemma dict_truthy_lookup d k b : d !! k = Some b -> dict_truthy d = true.
Proof.
  intros Hk. apply dict_truthy_true. intros ->.
  by rewrite lookup_empty in Hk.
Qed.

End HeapFacts.

(** ** The finalizer *)

Section FinalizerFacts.
Context {X : Type}.
Implicit Types (w : World X) (r : ref) (h : Z) (self : Manager).

Lemma finalizer_empty h r w :
  deref r w = ∅ -> finalizer (_make_finalizer h r) w = (Return tt, w).
Proof.
  intros He. unfold finalizer; simpl.
  apply dict_truthy_false in He. by rewrite He.
Qed.

Lemma finalizer_present h r w b :
  deref r w !! h = Some b ->
  finalizer (_make_finalizer h r) w
  = (Return tt, assign r (delete h (deref r w)) w).
Proof.
  intros Hb. unfold finalizer, dict_delitem; simpl.
  by rewrite (dict_truthy_lookup _ _ _ Hb), Hb.
Qed.

Lemma finalizer_missing h r w :
  deref r w <> ∅ -> deref r w !! h = None ->
  finalizer (_make_finalizer h r) w = (Raise (KeyError h), w).
Proof.
  intros Hne Hn. unfold finalizer, dict_delitem; simpl.
  apply dict_truthy_true in Hne. by rewrite Hne, Hn.
Qed.

Lemma reset_empties self w :
  reset self w = (Return tt, assign (allocations self) ∅ w).
Proof. reflexivity. Qed.

(** C3: when [h] is a key of the registry, one invocation of the
    finalizer made for [h] returns normally and leaves a registry in
    which [h] is no longer a key; every other entry is kept. *)
Theorem finalizer_removes_handle h r w :
  h ∈ dom (deref r w) ->
  exists w',
    finalizer (_make_finalizer h r) w = (Return tt, w') /\
    (h ∉ dom (deref r w')) /\
    (forall k, k <> h -> deref r w' !! k = deref r w !! k).
Proof.
  intros Hin. destruct (proj1 (elem_of_dom _ _) Hin) as [b Hb].
  exists (assign r (delete h (deref r w)) w).
  split; [by apply (finalizer_present h r w b) |].
  rewrite deref_assign_eq. split.
  - apply not_elem_of_dom, lookup_delete_eq.
  - intros k Hk. by apply lookup_delete_ne.
Qed.

(** C1, as amended: the finalizer returns normally exactly when the
    registry is empty or still holds its handle.  On an empty registry,
    and so after [reset()], it changes nothing.  A second invocation
    for a handle that the first one removed changes nothing when the
    first one left the registry empty, and raises [KeyError] (registry
    untouched) when other handles remain. *)
Theorem finalizer_raises_only_when_handle_missing h r w :
  ((deref r w = ∅ \/ h ∈ dom (deref r w)) <->
   exists w', finalizer (_make_finalizer h r) w = (Return tt, w')) /\
  (deref r w = ∅ -> finalizer (_make_finalizer h r) w = (Return tt, w)) /\
  (forall self, allocations self = r ->
     finalizer (_make_finalizer h r) (snd (reset self w))
     = (Return tt, snd (reset self w))) /\
  (h ∈ dom (deref r w) ->
   exists w1,
     finalizer (_make_finalizer h r) w = (Return tt, w1) /\
     (delete h (deref r w) = ∅ ->
      finalizer (_make_finalizer h r) w1 = (Return tt, w1)) /\
     (delete h (deref r w) <> ∅ ->
      finalizer (_make_finalizer h r) w1 = (Raise (KeyError h), w1))) /\
  (deref r w <> ∅ -> h ∉ dom (deref r w) ->
   finalizer (_make_finalizer h r) w = (Raise (KeyError h), w)).
Proof.
  repeat split.
  - intros [He | Hin].
    + exists w. by apply finalizer_empty.
    + destruct (proj1 (elem_of_dom _ _) Hin) as [b Hb]. eexists.
      by apply (finalizer_present h r w b).
  - intros [w' Hr].
    destruct (decide (deref r w = ∅)) as [He | Hne]; [by left | right].
    destruct (deref r w !! h) as [b |] eqn:Hb.
    + apply elem_of_dom. by exists b.
    + rewrite (finalizer_missing h r w Hne Hb) in Hr. discriminate.
  - apply finalizer_empty.
  - intros self <-. rewrite reset_empties; simpl.
    apply finalizer_empty. by rewrite deref_assign_eq.
  - intros Hin. destruct (proj1 (elem_of_dom _ _) Hin) as [b Hb].
    exists (assign r (delete h (deref r w)) w).
    split; [by apply (finalizer_present h r w b) |]. split.
    + intros He. apply finalizer_empty. by rewrite deref_assign_eq.
    + intros Hne. apply finalizer_missing; rewrite deref_assign_eq.
      * done.
      * apply lookup_delete_eq.
  - intros Hne Hnin. apply finalizer_missing; [done |].
    by apply not_elem_of_dom.
Qed.

End FinalizerFacts.

(** C3 at a registry holding handles 1 and 2. *)
Lemma finalizer_removes_handle_witness :
  exists w',
    finalizer (_make_finalizer 1 0%nat)
      (world_of {[ 1 := buf_at 1 8; 2 := buf_at 2 8 ]} pool0)
    = (Return tt, w') /\
    (1 ∉ dom (deref 0%nat w')) /\
    (forall k, k <> 1 ->
       deref 0%nat w' !! k
       = deref 0%nat
           (world_of {[ 1 := buf_at 1 8; 2 := buf_at 2 8 ]} pool0) !! k).
Proof.
  apply (finalizer_removes_handle 1 0%nat
           (world_of {[ 1 := buf_at 1 8; 2 := buf_at 2 8 ]} pool0)).
  apply elem_of_dom. exists (buf_at 1 8). vm_compute. reflexivity.
Defined.

(** C1 as stated fails: with handles 1 and 2 registered, the first
    invocation of the finalizer for handle 1 removes it, and the second
    invocation raises [KeyError] instead of doing nothing. *)
Lemma finalizer_second_call_raises :
  exists w1,
    finalizer (_make_finalizer 1 0%nat)
      (world_of {[ 1 := buf_at 1 8; 2 := buf_at 2 8 ]} pool0)
    = (Return tt, w1) /\
    finalizer (_make_finalizer 1 0%nat) w1 = (Raise (KeyError 1), w1).
Proof. eexists. split; vm_compute; reflexivity. Qed.

(** The amended C1 at a registry holding only handle 1: after
    [reset()] the finalizer changes nothing, and so does a second
    invocation after the first one emptied the registry. *)
Lemma finalizer_raises_only_when_handle_missing_witness :
  finalizer (_make_finalizer 1 0%nat)
    (snd (reset self0 (world_of {[ 1 := buf_at 1 8 ]} pool0)))
  = (Return tt, snd (reset self0 (world_of {[ 1 := buf_at 1 8 ]} pool0))) /\
  exists w1,
    finalizer (_make_finalizer 1 0%nat)
      (world_of {[ 1 := buf_at 1 8 ]} pool0)
    = (Return tt, w1) /\
    finalizer (_make_finalizer 1 0%nat) w1 = (Return tt, w1).
Proof.
  split.
  - apply (proj1 (proj2 (proj2
             (finalizer_raises_only_when_handle_missing 1 0%nat
                (world_of {[ 1 := buf_at 1 8 ]} pool0))))).
    reflexivity.
  - destruct (proj1 (proj2 (proj2 (proj2
                (finalizer_raises_only_when_handle_missing 1 0%nat
                   (world_of {[ 1 := buf_at 1 8 ]} pool0))))))
      as (w1 & Hfirst & Hempty & _).
    + apply elem_of_dom. exists (buf_at 1 8). vm_compute. reflexivity.
    + exists w1. split; [exact Hfirst |]. apply Hempty.
      vm_compute. reflexivity.
Defined.

(** ** Allocation *)

Section MemallocFacts.
Context {X : Type} `{Collaborators X}.
Implicit Types (w : World X) (self : Manager) (ops : list op).

Lemma deref_same_heap {Y} (w w' : World Y) r :
  heap w' = heap w -> deref r w' = deref r w.
Proof. intros Hh. unfold deref. by rewrite Hh. Qed.

Lemma memalloc_returns self nbytes stream w buf x' :
  DeviceBuffer_new nbytes stream (ext w) = (Return buf, x') ->
  deref (allocations self) w !! c_uint64 (db_ptr buf) = None ->
  memalloc self nbytes stream w
  = (Return (mkMemoryPointer (current_context x') (c_uint64 (db_ptr buf))
               nbytes
               (Some (_make_finalizer (c_uint64 (db_ptr buf))
                        (allocations self)))
               None),
     assign (allocations self)
       (<[c_uint64 (db_ptr buf) := buf]>
          (deref (allocations self) w))
       (after_DeviceBuffer nbytes stream x' w)).
Proof.
  intros Hnew Hfresh. unfold memalloc, bind, extern, query, dict_setitem.
  rewrite Hnew; simpl.
  change (deref (allocations self)
            (mkWorld (heap w) x' (calls w ++ [Call_DeviceBuffer nbytes stream])
                     (numba w) (cupy w)))
    with (deref (allocations self) w).
  by rewrite Hfresh.
Qed.

Lemma memalloc_collides self nbytes stream w buf x' old :
  DeviceBuffer_new nbytes stream (ext w) = (Return buf, x') ->
  deref (allocations self) w !! c_uint64 (db_ptr buf) = Some old ->
  memalloc self nbytes stream w
  = (Raise (AssertionError (c_uint64 (db_ptr buf))),
     after_DeviceBuffer nbytes stream x' w).
Proof.
  intros Hnew Hold. unfold memalloc, bind, extern, query, dict_setitem.
  rewrite Hnew; simpl.
  change (deref (allocations self)
            (mkWorld (heap w) x' (calls w ++ [Call_DeviceBuffer nbytes stream])
                     (numba w) (cupy w)))
    with (deref (allocations self) w).
  by rewrite Hold.
Qed.

Lemma memalloc_raises self nbytes stream w e x' :
  DeviceBuffer_new nbytes stream (ext w) = (Raise e, x') ->
  memalloc self nbytes stream w
  = (Raise e, after_DeviceBuffer nbytes stream x' w).
Proof.
  intros Hnew. unfold memalloc, bind, extern. by rewrite Hnew.
Qed.

(** [memalloc] either registers a buffer under a handle that was free
    and returns, or raises and leaves the heap as it was. *)
Lemma memalloc_cases self nbytes stream w :
  (exists buf x',
     DeviceBuffer_new nbytes stream (ext w) = (Return buf, x') /\
     deref (allocations self) w !! c_uint64 (db_ptr buf) = None /\
     memalloc self nbytes stream w
     = (Return (mkMemoryPointer (current_context x')
                  (c_uint64 (db_ptr buf)) nbytes
                  (Some (_make_finalizer (c_uint64 (db_ptr buf))
                           (allocations self)))
                  None),
        assign (allocations self)
          (<[c_uint64 (db_ptr buf) := buf]>
             (deref (allocations self) w))
          (after_DeviceBuffer nbytes stream x' w))) \/
  (exists e w',
     memalloc self nbytes stream w = (Raise e, w') /\ heap w' = heap w).
Proof.
  destruct (DeviceBuffer_new nbytes stream (ext w)) as [[buf | e] x']
    eqn:Hnew.
  - destruct (deref (allocations self) w !! c_uint64 (db_ptr buf))
      as [old |] eqn:Hold.
    + right. eexists _, _.
      split;
        [exact (memalloc_collides self nbytes stream w buf x' old Hnew Hold)
        | reflexivity].
    + left. exists buf, x'. split; [reflexivity |]. split; [exact Hold |].
      exact (memalloc_returns self nbytes stream w buf x' Hnew Hold).
  - right. eexists _, _.
    split; [exact (memalloc_raises self nbytes stream w e x' Hnew)
           | reflexivity].
Qed.

(** Every step keeps the handles not yet released inside the registry. *)
Lemma step_keeps_live_registered self (s : gset Z * World X) o :
  fst s ⊆ dom (deref (allocations self) (snd s)) ->
  fst (step self s o)
  ⊆ dom (deref (allocations self) (snd (step self s o))).
Proof.
  destruct s as [live w]; simpl. intros Hinv.
  destruct o as [nbytes stream | handle |]; simpl.
  - destruct (memalloc_cases self nbytes stream w)
      as [(buf & x' & _ & _ & ->) | (e & w' & -> & Hheap)]; simpl.
    + rewrite deref_assign_eq, dom_insert_L.
      apply union_least.
      * etrans; [exact Hinv | apply union_subseteq_r].
      * apply union_subseteq_l.
    + by rewrite (deref_same_heap w w' _ Hheap).
  - destruct (decide (deref (allocations self) w = ∅)) as [He | Hne].
    + rewrite (finalizer_empty _ _ _ He); simpl.
      intros k Hk. apply elem_of_difference in Hk as [Hk _]. by apply Hinv.
    + destruct (deref (allocations self) w !! handle) as [b |] eqn:Hb.
      * rewrite (finalizer_present _ _ _ _ Hb); simpl.
        rewrite deref_assign_eq, dom_delete_L.
        intros k Hk. apply elem_of_difference in Hk as [Hk1 Hk2].
        apply elem_of_difference. split; [by apply Hinv | done].
      * by rewrite (finalizer_missing _ _ _ Hne Hb).
  - apply empty_subseteq.
Qed.

Lemma run_keeps_live_registered self ops (s : gset Z * World X) :
  fst s ⊆ dom (deref (allocations self) (snd s)) ->
  fst (run self ops s)
  ⊆ dom (deref (allocations self) (snd (run self ops s))).
Proof.
  revert s. induction ops as [| o ops IH]; intros s Hinv; [exact Hinv |].
  apply IH. by apply step_keeps_live_registered.
Qed.

(** C2: whenever [memalloc] returns a pointer, the pool allocator has
    returned a buffer, the pointer's handle is that buffer's pointer
    value (as a 64-bit unsigned integer), and in the world [memalloc]
    returns in, the registry already maps the handle to the buffer.
    It does return when the pool allocator returns a buffer whose
    handle is not registered yet.  Hence, along any sequence of
    allocations, finalizer invocations and resets, every handle
    allocated and not yet released is a key of the registry. *)
Theorem memalloc_registers_before_return self nbytes stream w :
  (forall mem w',
     memalloc self nbytes stream w = (Return mem, w') ->
     exists buf,
       fst (DeviceBuffer_new nbytes stream (ext w)) = Return buf /\
       mp_handle mem = c_uint64 (db_ptr buf) /\
       (0 <= db_ptr buf < 2 ^ 64 -> mp_handle mem = db_ptr buf) /\
       deref (allocations self) w' !! mp_handle mem = Some buf /\
       mp_finalizer mem
       = Some (_make_finalizer (mp_handle mem) (allocations self))) /\
  (forall buf x',
     DeviceBuffer_new nbytes stream (ext w) = (Return buf, x') ->
     c_uint64 (db_ptr buf) ∉ dom (deref (allocations self) w) ->
     exists mem w', memalloc self nbytes stream w = (Return mem, w')) /\
  (forall ops live,
     live ⊆ dom (deref (allocations self) w) ->
     fst (run self (Op_memalloc nbytes stream :: ops) (live, w))
     ⊆ dom (deref (allocations self)
              (snd (run self (Op_memalloc nbytes stream :: ops)
                      (live, w))))).
Proof.
  split; [| split].
  - intros mem w' Hret.
    destruct (memalloc_cases self nbytes stream w)
      as [(buf & x' & Hnew & _ & Hm) | (e & w1 & Hm & _)];
      rewrite Hm in Hret; [| discriminate].
    injection Hret as <- <-. exists buf.
    split; [by rewrite Hnew |]. split; [reflexivity |].
    split; [| split].
    + intros Hrange. cbn [mp_handle]. unfold c_uint64.
      by apply Z.mod_small.
    + cbn [mp_handle]. rewrite deref_assign_eq. apply lookup_insert_eq.
    + reflexivity.
  - intros buf x' Hnew Hfresh. apply not_elem_of_dom in Hfresh.
    eexists _, _.
    exact (memalloc_returns self nbytes stream w buf x' Hnew Hfresh).
  - intros ops live Hinv. by apply run_keeps_live_registered.
Qed.

(** C7: when the pool allocator raises, [memalloc] raises the same
    exception and the heap, hence the registry, is what it was. *)
Theorem memalloc_failure_leaves_registry self nbytes stream w e x' :
  DeviceBuffer_new nbytes stream (ext w) = (Raise e, x') ->
  exists w',
    memalloc self nbytes stream w = (Raise e, w') /\
    heap w' = heap w /\
    deref (allocations self) w' = deref (allocations self) w.
Proof.
  intros Hnew. eexists.
  split; [exact (memalloc_raises self nbytes stream w e x' Hnew) |].
  by split.
Qed.

End MemallocFacts.

(** ** Lifecycle *)

Section LifecycleFacts.
Context {X : Type} `{Collaborators X}.
Implicit Types (w : World X).

Lemma extern_calls {A} (c : call) (f : X -> outcome A * X) w :
  calls (snd (extern c f w)) = calls w ++ [c].
Proof. unfold extern. by destruct (f (ext w)). Qed.

Lemma finalize_calls w :
  calls (snd (_finalize w)) = calls w ++ [Call_rmm_finalize].
Proof. apply extern_calls. Qed.



(** C5, as amended: [reinitialize] makes exactly one finalize call.
    When that call returns, it is followed by exactly one initialize
    call, made as [_initialize] makes it for the caller's own
    arguments; when it raises, the exception propagates and no
    initialize call is made. *)
Theorem reinitialize_finalize_then_initialize pool_allocator
    managed_memory initial_pool_size devices logging w :
  (forall v x',
     rmm_finalize (ext w) = (Return v, x') ->
     reinitialize pool_allocator managed_memory initial_pool_size devices
                  logging w
     = _initialize pool_allocator managed_memory initial_pool_size devices
                   logging (snd (_finalize w)) /\
     exists mode size devs,
       calls (snd (reinitialize pool_allocator managed_memory
                     initial_pool_size devices logging w))
       = calls w ++ [Call_rmm_finalize;
                     Call_rmm_initialize mode size devs logging]) /\
  (forall e x',
     rmm_finalize (ext w) = (Raise e, x') ->
     reinitialize pool_allocator managed_memory initial_pool_size devices
                  logging w
     = (Raise e, snd (_finalize w)) /\
     calls (snd (reinitialize pool_allocator managed_memory
                   initial_pool_size devices logging w))
     = calls w ++ [Call_rmm_finalize]).
Proof.
  split.
  - intros v x' Hfin.
    assert (Hre : reinitialize pool_allocator managed_memory
                    initial_pool_size devices logging w
                  = _initialize pool_allocator managed_memory
                      initial_pool_size devices logging
                      (snd (_finalize w))).
    { unfold reinitialize, bind, _finalize, extern. by rewrite Hfin. }
    split; [exact Hre |].
    eexists _, _, _. rewrite Hre. unfold _initialize.
    rewrite extern_calls, finalize_calls, <- app_assoc. reflexivity.
  - intros e x' Hfin.
    assert (Hre : reinitialize pool_allocator managed_memory
                    initial_pool_size devices logging w
                  = (Raise e, snd (_finalize w))).
    { unfold reinitialize, bind, _finalize, extern. by rewrite Hfin. }
    split; [exact Hre |]. rewrite Hre. apply finalize_calls.
Qed.

End LifecycleFacts.

(** ** IPC export and the framework hooks *)

Section HookFacts.
Context {X : Type} `{Collaborators X}.
Implicit Types (w : World X) (self : Manager).

Lemma length_c_byte_64 (written : list byte) :
  length (c_byte_64 written) = 64%nat.
Proof.
  unfold c_byte_64.
  rewrite length_take, length_app, length_replicate. lia.
Qed.

Lemma c_byte_64_full (written : list byte) :
  length written = 64%nat -> c_byte_64 written = written.
Proof. intros Hlen. unfold c_byte_64. by apply take_app_length'. Qed.

Lemma get_ipc_handle_returns self memory stream w written x1 offset x2 :
  cuIpcGetMemHandle (owner_handle memory) (ext w) = (Return written, x1) ->
  rmm_getallocationoffset (device_ctypes_pointer memory) stream x1
  = (Return offset, x2) ->
  fst (get_ipc_handle self memory stream w)
  = Return (mkIpcHandle memory (c_byte_64 written) (mp_size memory)
              (get_device_identity x1) offset).
Proof.
  intros Hdrv Hoff. unfold get_ipc_handle, bind, extern, query; simpl.
  rewrite Hdrv; simpl. by rewrite Hoff.
Qed.

(** C9: with Numba absent [use_rmm_for_numba] raises [RuntimeError],
    with CuPy absent [rmm_cupy_allocator] raises
    [ModuleNotFoundError]; either way the world is left as it was. *)
Theorem absent_framework_raises w :
  (numba w = false ->
   use_rmm_for_numba w
   = (Raise (RuntimeError "Numba is not available"), w)) /\
  (cupy w = false ->
   forall nbytes,
     rmm_cupy_allocator nbytes w
     = (Raise (ModuleNotFoundError "No module named 'cupy'"), w)).
Proof.
  split.
  - intros Hn. unfold use_rmm_for_numba. by rewrite Hn.
  - intros Hc nbytes. unfold rmm_cupy_allocator. by rewrite Hc.
Qed.

(** C10: with CuPy present and the pool allocation successful,
    [rmm_cupy_allocator] returns a pointer at offset 0 into a memory
    object that takes its pointer and size from the buffer and is owned
    by it; its device id is -1 when the buffer's pointer is not null
    and the current device id when it is null. *)
Theorem rmm_cupy_allocator_returns nbytes w buf x' :
  cupy w = true ->
  DeviceBuffer_new nbytes 0 (ext w) = (Return buf, x') ->
  exists ptr,
    fst (rmm_cupy_allocator nbytes w) = Return ptr /\
    cp_offset ptr = 0 /\
    um_ptr (cp_mem ptr) = db_ptr buf /\
    um_size (cp_mem ptr) = db_size buf /\
    um_owner (cp_mem ptr) = buf /\
    (db_ptr buf <> 0 -> um_device_id (cp_mem ptr) = -1) /\
    (db_ptr buf = 0 -> um_device_id (cp_mem ptr) = get_device_id x').
Proof.
  intros Hc Hnew. unfold rmm_cupy_allocator, bind, extern.
  rewrite Hc, Hnew; simpl.
  destruct (db_ptr buf =? 0) eqn:Hz; simpl.
  - apply Z.eqb_eq in Hz. eexists. split; [reflexivity |]. simpl.
    do 4 (split; [reflexivity |]).
    split; intros Hp; [congruence | reflexivity].
  - apply Z.eqb_neq in Hz. eexists. split; [reflexivity |]. simpl.
    do 4 (split; [reflexivity |]).
    split; intros Hp; [reflexivity | congruence].
Qed.

End HookFacts.

(** C8: when the driver call and the offset query return,
    [get_ipc_handle] returns a record holding the memory object, the
    64-byte array the driver wrote the platform handle into (the
    driver's bytes themselves when it wrote 64 of them),
    [memory.size], the device identity, and the offset the pool
    allocator reported for the memory's device pointer on the given
    stream.  On the block pool that offset is the pointer minus the
    block start: 0 at the start of the block, positive inside it. *)
Theorem get_ipc_handle_packages_offset :
  (forall (X : Type) (C : Collaborators X) (self : Manager)
          (memory : MemoryPointer) (stream : Z) (w : World X)
          (written : list byte) (x1 : X) (offset : Z) (x2 : X),
     cuIpcGetMemHandle (owner_handle memory) (ext w)
     = (Return written, x1) ->
     rmm_getallocationoffset (device_ctypes_pointer memory) stream x1
     = (Return offset, x2) ->
     exists ipc,
       fst (get_ipc_handle self memory stream w) = Return ipc /\
       ipc_base ipc = memory /\
       ipc_handle ipc = c_byte_64 written /\
       (length written = 64%nat -> ipc_handle ipc = written) /\
       length (ipc_handle ipc) = 64%nat /\
       ipc_size ipc = mp_size memory /\
       ipc_source_info ipc = get_device_identity x1 /\
       ipc_offset ipc = offset) /\
  (forall (self : Manager) (memory : MemoryPointer) (stream : Z)
          (w : World BlockPool),
     exists ipc,
       fst (get_ipc_handle self memory stream w) = Return ipc /\
       ipc_offset ipc = mp_handle memory - bp_base (ext w) /\
       (mp_handle memory = bp_base (ext w) -> ipc_offset ipc = 0) /\
       (bp_base (ext w) < mp_handle memory -> 0 < ipc_offset ipc)).
Proof.
  split.
  - intros X C self memory stream w written x1 offset x2 Hdrv Hoff.
    eexists. split.
    + exact (get_ipc_handle_returns self memory stream w written x1
               offset x2 Hdrv Hoff).
    + simpl. split; [reflexivity |]. split; [reflexivity |].
      split; [apply c_byte_64_full |].
      split; [apply length_c_byte_64 |]. by repeat split.
  - intros self memory stream w. eexists. split; [reflexivity |].
    simpl. unfold device_ctypes_pointer.
    split; [reflexivity |]. split; intros Hp; lia.
Qed.

(** ** The theorems at sample inputs *)

(** C2 at a 16-byte request served from the start of the block, with
    an empty registry. *)
Lemma memalloc_registers_before_return_witness :
  exists mem w',
    memalloc self0 16 0 (world_of ∅ pool0) = (Return mem, w') /\
    exists buf,
      fst (DeviceBuffer_new 16 0 (ext (world_of ∅ pool0))) = Return buf /\
      mp_handle mem = c_uint64 (db_ptr buf) /\
      (0 <= db_ptr buf < 2 ^ 64 -> mp_handle mem = db_ptr buf) /\
      deref (allocations self0) w' !! mp_handle mem = Some buf /\
      mp_finalizer mem
      = Some (_make_finalizer (mp_handle mem) (allocations self0)).
Proof.
  destruct (proj1 (proj2 (memalloc_registers_before_return self0 16 0
                            (world_of ∅ pool0)))
              (buf_at 4096 16) (mkBlockPool 4096 1024 16 true 0 0))
    as (mem & w' & Hret).
  - reflexivity.
  - apply not_elem_of_dom. vm_compute. reflexivity.
  - exists mem, w'. split; [exact Hret |].
    exact (proj1 (memalloc_registers_before_return self0 16 0
                    (world_of ∅ pool0)) mem w' Hret).
Defined.

(** C7 at a 2000-byte request against the 1024-byte pool, with one
    buffer already registered. *)
Lemma memalloc_failure_leaves_registry_witness :
  exists w',
    memalloc self0 2000 0 (world_of {[ 1 := buf_at 1 8 ]} pool0)
    = (Raise (MemoryError "std::bad_alloc"), w') /\
    heap w' = heap (world_of {[ 1 := buf_at 1 8 ]} pool0) /\
    deref (allocations self0) w'
    = deref (allocations self0) (world_of {[ 1 := buf_at 1 8 ]} pool0).
Proof.
  apply (memalloc_failure_leaves_registry self0 2000 0
           (world_of {[ 1 := buf_at 1 8 ]} pool0)
           (MemoryError "std::bad_alloc") pool0).
  reflexivity.
Defined.

(** C5 as stated fails: when the finalize call raises, no initialize
    call follows it. *)
Lemma reinitialize_stops_when_finalize_raises :
  fst (reinitialize true false None (DevInt 0) false
         (world_of ∅ pool_failing_finalize))
  = Raise (RMMError 7 "RMM_ERROR") /\
  calls (snd (reinitialize true false None (DevInt 0) false
                (world_of ∅ pool_failing_finalize)))
  = [Call_rmm_finalize].
Proof. split; reflexivity. Qed.

(** The amended C5 on a pool whose finalize returns. *)
Lemma reinitialize_finalize_then_initialize_witness :
  reinitialize true false (Some 0) (DevInt 3) true (world_of ∅ pool0)
  = _initialize true false (Some 0) (DevInt 3) true
      (snd (_finalize (world_of ∅ pool0))) /\
  exists mode size devs,
    calls (snd (reinitialize true false (Some 0) (DevInt 3) true
                  (world_of ∅ pool0)))
    = calls (world_of ∅ pool0)
      ++ [Call_rmm_finalize; Call_rmm_initialize mode size devs true].
Proof.
  apply (proj1 (reinitialize_finalize_then_initialize true false (Some 0)
                  (DevInt 3) true (world_of ∅ pool0))
           0 (mkBlockPool 4096 1024 0 false 0 0)).
  reflexivity.
Defined.



(** C9 in a process where neither framework was imported. *)
Lemma absent_framework_raises_witness :
  use_rmm_for_numba world_without_frameworks
  = (Raise (RuntimeError "Numba is not available"),
     world_without_frameworks) /\
  rmm_cupy_allocator 64 world_without_frameworks
  = (Raise (ModuleNotFoundError "No module named 'cupy'"),
     world_without_frameworks).
Proof.
  split.
  - apply (proj1 (absent_framework_raises world_without_frameworks)).
    reflexivity.
  - apply (proj2 (absent_framework_raises world_without_frameworks)).
    reflexivity.
Defined.

(** C10 at a 16-byte request: the buffer's pointer is 4096, not null. *)
Lemma rmm_cupy_allocator_returns_witness :
  exists ptr,
    fst (rmm_cupy_allocator 16 (world_of ∅ pool0)) = Return ptr /\
    cp_offset ptr = 0 /\
    um_ptr (cp_mem ptr) = db_ptr (buf_at 4096 16) /\
    um_size (cp_mem ptr) = db_size (buf_at 4096 16) /\
    um_owner (cp_mem ptr) = buf_at 4096 16 /\
    (db_ptr (buf_at 4096 16) <> 0 -> um_device_id (cp_mem ptr) = -1) /\
    (db_ptr (buf_at 4096 16) = 0 ->
     um_device_id (cp_mem ptr)
     = get_device_id (mkBlockPool 4096 1024 16 true 0 0)).
Proof.
  apply (rmm_cupy_allocator_returns 16 (world_of ∅ pool0)
           (buf_at 4096 16) (mkBlockPool 4096 1024 16 true 0 0)).
  - reflexivity.
  - reflexivity.
Defined.

(** C8 at a sub-allocation 4 bytes into the block. *)
Lemma get_ipc_handle_packages_offset_witness :
  exists ipc,
    fst (get_ipc_handle self0 (mkMemoryPointer 0 4100 8 None (Some 4096)) 0
           (world_of ∅ pool0))
    = Return ipc /\
    ipc_base ipc = mkMemoryPointer 0 4100 8 None (Some 4096) /\
    ipc_handle ipc = c_byte_64 (replicate 64 x01) /\
    (length (replicate 64 x01) = 64%nat ->
     ipc_handle ipc = replicate 64 x01) /\
    length (ipc_handle ipc) = 64%nat /\
    ipc_size ipc = mp_size (mkMemoryPointer 0 4100 8 None (Some 4096)) /\
    ipc_source_info ipc = get_device_identity pool0 /\
    ipc_offset ipc = 4.
Proof.
  apply (proj1 get_ipc_handle_packages_offset BlockPool _ self0
           (mkMemoryPointer 0 4100 8 None (Some 4096)) 0
           (world_of ∅ pool0) (replicate 64 x01) pool0 4 pool0).
  - reflexivity.
  - reflexivity.
Defined.

(** ** Further properties of the lifecycle functions *)

Section LifecycleMore.
Context {X : Type} `{Collaborators X}.
Implicit Types (w : World X).

Lemma extern_frame {A} (c : call) (f : X -> outcome A * X) w :
  heap (snd (extern c f w)) = heap w /\
  numba (snd (extern c f w)) = numba w /\
  cupy (snd (extern c f w)) = cupy w.
Proof. unfold extern. by destruct (f (ext w)). Qed.



(** X3: some arguments cannot be told apart.  Without pooling the size
    asked for is ignored altogether; [devices=None] is [devices=0];
    with pooling, a size of 0 is a size of 1. *)
Theorem initialize_indistinguishable_arguments managed_memory logging w :
  (forall initial_pool_size initial_pool_size' devices,
     _initialize false managed_memory initial_pool_size devices logging w
     = _initialize false managed_memory initial_pool_size' devices
         logging w) /\
  (forall pool_allocator initial_pool_size,
     _initialize pool_allocator managed_memory initial_pool_size DevNone
       logging w
     = _initialize pool_allocator managed_memory initial_pool_size
         (DevInt 0) logging w) /\
  (forall devices,
     _initialize true managed_memory (Some 0) devices logging w
     = _initialize true managed_memory (Some 1) devices logging w).
Proof. by repeat split. Qed.

(** X4: [reinitialize] never touches the Python heap: whether the
    finalize and initialize calls return or raise, every registry
    holds afterwards what it held before, handles of the previous
    initialization included. *)
Theorem reinitialize_keeps_registries pool_allocator managed_memory
    initial_pool_size devices logging w :
  heap (snd (reinitialize pool_allocator managed_memory initial_pool_size
               devices logging w))
  = heap w /\
  forall r,
    deref r (snd (reinitialize pool_allocator managed_memory
                    initial_pool_size devices logging w))
    = deref r w.
Proof.
  assert (Hheap :
    heap (snd (reinitialize pool_allocator managed_memory
                 initial_pool_size devices logging w)) = heap w).
  { unfold reinitialize, bind.
    destruct (_finalize w) as [[v | e] w1] eqn:Hfin.
    - unfold _initialize.
      rewrite (proj1 (extern_frame _ _ w1)).
      change w1 with (snd (Return v, w1)). rewrite <- Hfin.
      apply (proj1 (extern_frame _ _ w)).
    - change w1 with (snd (@Raise Z e, w1)). rewrite <- Hfin.
      apply (proj1 (extern_frame _ _ w)). }
  split; [exact Hheap |]. intros r. unfold deref. by rewrite Hheap.
Qed.

End LifecycleMore.


(** ** Further properties of the registry *)

Section RegistryMore.
Context {X : Type}.
Implicit Types (w : World X) (r : ref) (h : Z) (self : Manager).

(** X6: whatever its outcome, a finalizer leaves every other registry
    alone and never adds or changes an entry of its own registry. *)
Theorem finalizer_frame h r w :
  (forall r', r' <> r ->
     deref r' (snd (finalizer (_make_finalizer h r) w)) = deref r' w) /\
  (forall k b,
     deref r (snd (finalizer (_make_finalizer h r) w)) !! k = Some b ->
     deref r w !! k = Some b).
Proof.
  destruct (decide (deref r w = ∅)) as [He | Hne].
  - rewrite (finalizer_empty h r w He); simpl. by split.
  - destruct (deref r w !! h) as [b0 |] eqn:Hb.
    + rewrite (finalizer_present h r w b0 Hb); simpl. split.
      * intros r' Hr'. apply deref_assign_ne. congruence.
      * intros k b. rewrite deref_assign_eq.
        intros Hk. apply lookup_delete_Some in Hk. tauto.
    + rewrite (finalizer_missing h r w Hne Hb); simpl. by split.
Qed.

(** X7: a finalizer whose handle is registered shrinks the registry by
    exactly one entry. *)
Theorem finalizer_shrinks_by_one h r w :
  h ∈ dom (deref r w) ->
  size (deref r w)
  = S (size (deref r (snd (finalizer (_make_finalizer h r) w)))).
Proof.
  intros Hin. destruct (proj1 (elem_of_dom _ _) Hin) as [b Hb].
  rewrite (finalizer_present h r w b Hb); simpl.
  rewrite deref_assign_eq.
  rewrite <- (insert_delete_id (deref r w) h b Hb) at 1.
  apply map_size_insert_None, lookup_delete_eq.
Qed.


End RegistryMore.

(** ** Further properties of allocation *)

Section MemallocMore.
Context {X : Type} `{Collaborators X}.
Implicit Types (w : World X) (self : Manager) (ops : list op).

Lemma step_other_registry self (s : gset Z * World X) o r :
  r <> allocations self ->
  deref r (snd (step self s o)) = deref r (snd s).
Proof.
  intros Hr. destruct s as [live w]; simpl.
  destruct o as [nbytes stream | handle |]; simpl.
  - destruct (memalloc_cases self nbytes stream w)
      as [(buf & x' & _ & _ & ->) | (e & w' & -> & Hheap)]; simpl.
    + rewrite deref_assign_ne; [done | congruence].
    + by apply deref_same_heap.
  - destruct (decide (deref (allocations self) w = ∅)) as [He | Hne].
    + by rewrite (finalizer_empty _ _ _ He).
    + destruct (deref (allocations self) w !! handle) as [b |] eqn:Hb.
      * rewrite (finalizer_present _ _ _ _ Hb); simpl.
        rewrite deref_assign_ne; [done | congruence].
      * by rewrite (finalizer_missing _ _ _ Hne Hb).
  - change (deref r (assign (allocations self) ∅ w) = deref r w).
    rewrite deref_assign_ne; [done | congruence].
Qed.

Lemma step_registry_is_live self (s : gset Z * World X) o :
  dom (deref (allocations self) (snd s)) = fst s ->
  dom (deref (allocations self) (snd (step self s o)))
  = fst (step self s o).
Proof.
  destruct s as [live w]; simpl. intros Hinv.
  destruct o as [nbytes stream | handle |]; simpl.
  - destruct (memalloc_cases self nbytes stream w)
      as [(buf & x' & _ & _ & ->) | (e & w' & -> & Hheap)]; simpl.
    + rewrite deref_assign_eq, dom_insert_L, Hinv. apply union_comm_L.
    + by rewrite (deref_same_heap w w' _ Hheap).
  - destruct (decide (deref (allocations self) w = ∅)) as [He | Hne].
    + rewrite (finalizer_empty _ _ _ He); simpl.
      rewrite <- Hinv, He, dom_empty_L. symmetry. apply subseteq_empty_difference_L. apply empty_subseteq.
    + destruct (deref (allocations self) w !! handle) as [b |] eqn:Hb.
      * rewrite (finalizer_present _ _ _ _ Hb); simpl.
        by rewrite deref_assign_eq, dom_delete_L, Hinv.
      * by rewrite (finalizer_missing _ _ _ Hne Hb).
  - change (dom (deref (allocations self)
                  (assign (allocations self) ∅ w)) = (∅ : gset Z)).
    by rewrite deref_assign_eq, dom_empty_L.
Qed.

Lemma step_registry_size self (s : gset Z * World X) o :
  (size (deref (allocations self) (snd (step self s o)))
   <= size (deref (allocations self) (snd s))
      + (if is_memalloc o then 1 else 0))%nat.
Proof.
  destruct s as [live w]; simpl.
  destruct o as [nbytes stream | handle |]; simpl.
  - destruct (memalloc_cases self nbytes stream w)
      as [(buf & x' & _ & Hfresh & ->) | (e & w' & -> & Hheap)]; simpl.
    + rewrite deref_assign_eq, map_size_insert_None by done. lia.
    + rewrite (deref_same_heap w w' _ Hheap). lia.
  - destruct (decide (deref (allocations self) w = ∅)) as [He | Hne].
    + rewrite (finalizer_empty _ _ _ He); simpl. lia.
    + destruct (deref (allocations self) w !! handle) as [b |] eqn:Hb.
      * rewrite (finalizer_present _ _ _ _ Hb); simpl.
        rewrite deref_assign_eq.
        rewrite map_size_delete_Some by (by exists b). lia.
      * rewrite (finalizer_missing _ _ _ Hne Hb); simpl. lia.
  - change (size (deref (allocations self)
                   (assign (allocations self) ∅ w))
            <= size (deref (allocations self) w) + 0)%nat.
    rewrite deref_assign_eq, map_size_empty. lia.
Qed.

(** X9: allocate, then release.  When the handle of the new buffer was
    not registered before, running the finalizer [memalloc] attached to
    the pointer it returned brings every registry back to what it held
    before the allocation. *)
Theorem memalloc_finalizer_roundtrip self nbytes stream w buf x' :
  DeviceBuffer_new nbytes stream (ext w) = (Return buf, x') ->
  c_uint64 (db_ptr buf) ∉ dom (deref (allocations self) w) ->
  exists mem w1 f w2,
    memalloc self nbytes stream w = (Return mem, w1) /\
    mp_finalizer mem = Some f /\
    finalizer f w1 = (Return tt, w2) /\
    forall r, deref r w2 = deref r w.
Proof.
  intros Hnew Hfresh. apply not_elem_of_dom in Hfresh.
  eexists _, _, _, _.
  split;
    [exact (memalloc_returns self nbytes stream w buf x' Hnew Hfresh) |].
  split; [reflexivity |]. split.
  - apply (finalizer_present _ _ _ buf).
    rewrite deref_assign_eq. apply lookup_insert_eq.
  - intros r. rewrite deref_assign_eq, delete_insert_eq, delete_id by done.
    destruct (decide (r = allocations self)) as [-> | Hr].
    + by rewrite deref_assign_eq.
    + rewrite !deref_assign_ne by congruence. reflexivity.
Qed.

(** X10: what [memalloc] does to the registry once the pool allocator
    has returned a buffer.  When the buffer's handle is not registered,
    [memalloc] returns, adds exactly one entry and keeps every entry
    registered under another handle.  When the handle is already
    registered, [memalloc] raises [AssertionError] and the registry,
    the buffer recorded under that handle included, is what it was. *)
Theorem memalloc_registry_growth self nbytes stream w buf x' :
  DeviceBuffer_new nbytes stream (ext w) = (Return buf, x') ->
  (c_uint64 (db_ptr buf) ∉ dom (deref (allocations self) w) ->
   (exists mem, fst (memalloc self nbytes stream w) = Return mem) /\
   (forall k, k <> c_uint64 (db_ptr buf) ->
      deref (allocations self) (snd (memalloc self nbytes stream w)) !! k
      = deref (allocations self) w !! k) /\
   size (deref (allocations self) (snd (memalloc self nbytes stream w)))
   = S (size (deref (allocations self) w))) /\
  (c_uint64 (db_ptr buf) ∈ dom (deref (allocations self) w) ->
   fst (memalloc self nbytes stream w)
   = Raise (AssertionError (c_uint64 (db_ptr buf))) /\
   deref (allocations self) (snd (memalloc self nbytes stream w))
   = deref (allocations self) w).
Proof.
  intros Hnew. split.
  - intros Hfresh. apply not_elem_of_dom in Hfresh.
    rewrite (memalloc_returns self nbytes stream w buf x' Hnew Hfresh).
    simpl. rewrite deref_assign_eq. split; [by eexists |]. split.
    + intros k Hk. by apply lookup_insert_ne.
    + by apply map_size_insert_None.
  - intros Hin. destruct (proj1 (elem_of_dom _ _) Hin) as [old Hold].
    rewrite (memalloc_collides self nbytes stream w buf x' old Hnew Hold).
    by split.
Qed.

(** X11: when the pool allocator returns a buffer whose handle is not
    registered, the handle of the pointer [memalloc] returns is a
    64-bit unsigned value congruent to the buffer's pointer, also when
    the pool allocator reports a pointer outside that range; the size
    of the pointer is the size that was asked for. *)
Theorem memalloc_handle_in_range self nbytes stream w buf x' :
  DeviceBuffer_new nbytes stream (ext w) = (Return buf, x') ->
  c_uint64 (db_ptr buf) ∉ dom (deref (allocations self) w) ->
  exists mem,
    fst (memalloc self nbytes stream w) = Return mem /\
    0 <= mp_handle mem < 2 ^ 64 /\
    (mp_handle mem - db_ptr buf) mod 2 ^ 64 = 0 /\
    mp_size mem = nbytes.
Proof.
  intros Hnew Hfresh. apply not_elem_of_dom in Hfresh.
  rewrite (memalloc_returns self nbytes stream w buf x' Hnew Hfresh).
  eexists. split; [reflexivity |]. simpl. unfold c_uint64.
  split; [apply Z.mod_pos_bound; lia |]. split; [| reflexivity].
  rewrite Zminus_mod_idemp_l, Z.sub_diag. reflexivity.
Qed.

(** X12: managers do not interfere.  No sequence of allocations,
    finalizer invocations and resets on one manager changes the
    registry of another. *)
Theorem run_other_registry_untouched self ops (s : gset Z * World X) r :
  r <> allocations self ->
  deref r (snd (run self ops s)) = deref r (snd s).
Proof.
  intros Hr. revert s. induction ops as [| o ops IH]; intros s.
  - reflexivity.
  - unfold run in *; simpl. rewrite IH. by apply step_other_registry.
Qed.

(** X13: the registry holds nothing but live handles.  Starting from a
    registry whose keys are the handles allocated and not yet released,
    after any sequence of allocations, finalizer invocations and
    resets the keys of the registry are again exactly those handles. *)
Theorem run_registry_is_live self ops (s : gset Z * World X) :
  dom (deref (allocations self) (snd s)) = fst s ->
  dom (deref (allocations self) (snd (run self ops s)))
  = fst (run self ops s).
Proof.
  revert s. induction ops as [| o ops IH]; intros s Hinv; [exact Hinv |].
  unfold run in *; simpl. apply IH. by apply step_registry_is_live.
Qed.

(** X14: the registry never holds more entries than it started with
    plus the number of allocation requests made since. *)
Theorem run_registry_size_bound self ops (s : gset Z * World X) :
  (size (deref (allocations self) (snd (run self ops s)))
   <= size (deref (allocations self) (snd s))
      + length (filter (fun o => is_memalloc o = true) ops))%nat.
Proof.
  revert s. induction ops as [| o ops IH]; intros s.
  - simpl. lia.
  - unfold run in *; simpl.
    pose proof (IH (step self s o)) as Hrest.
    pose proof (step_registry_size self s o) as Hstep.
    rewrite filter_cons. destruct o; simpl in *; lia.
Qed.

(** X15: the first allocation after [reset()] leaves a registry that
    holds the new buffer and nothing else. *)
Theorem memalloc_after_reset self nbytes stream w buf x' :
  DeviceBuffer_new nbytes stream (ext w) = (Return buf, x') ->
  deref (allocations self)
    (snd (then_ (reset self) (memalloc self nbytes stream) w))
  = {[ c_uint64 (db_ptr buf) := buf ]}.
Proof.
  intros Hnew. unfold then_, bind. rewrite reset_empties.
  rewrite (memalloc_returns self nbytes stream
             (assign (allocations self) ∅ w) buf x' Hnew)
    by (by rewrite deref_assign_eq).
  simpl. by rewrite !deref_assign_eq.
Qed.

(** X16: a finalizer is bound to the handle value, not to one
    allocation.  When an allocation is registered under a handle that
    was free, a finalizer made earlier for that handle returns normally
    and removes the new allocation's entry. *)
Theorem stale_finalizer_releases_new_allocation self nbytes stream w buf
    x' h :
  DeviceBuffer_new nbytes stream (ext w) = (Return buf, x') ->
  c_uint64 (db_ptr buf) = h ->
  h ∉ dom (deref (allocations self) w) ->
  exists mem w1 w2,
    memalloc self nbytes stream w = (Return mem, w1) /\
    deref (allocations self) w1 !! mp_handle mem = Some buf /\
    mp_finalizer mem = Some (_make_finalizer h (allocations self)) /\
    finalizer (_make_finalizer h (allocations self)) w1
    = (Return tt, w2) /\
    deref (allocations self) w2 !! mp_handle mem = None.
Proof.
  intros Hnew <- Hfresh. apply not_elem_of_dom in Hfresh.
  eexists _, _, _.
  split;
    [exact (memalloc_returns self nbytes stream w buf x' Hnew Hfresh) |].
  cbn [mp_handle mp_finalizer].
  assert (Hreg : deref (allocations self)
                   (assign (allocations self)
                      (<[c_uint64 (db_ptr buf) := buf]>
                         (deref (allocations self) w))
                      (after_DeviceBuffer nbytes stream x' w))
                 !! c_uint64 (db_ptr buf) = Some buf).
  { rewrite deref_assign_eq. apply lookup_insert_eq. }
  split; [exact Hreg |]. split; [reflexivity |]. split.
  - exact (finalizer_present _ _ _ buf Hreg).
  - rewrite deref_assign_eq. apply lookup_delete_eq.
Qed.

End MemallocMore.

(** ** Further properties of the IPC export and the framework hooks *)

Section HookMore.
Context {X : Type} `{Collaborators X}.
Implicit Types (w : World X) (self : Manager).

(** X17: [get_ipc_handle] only reads: whether the driver call and the
    offset query return or raise, the Python heap, and with it every
    registry, is left as it was. *)
Theorem get_ipc_handle_keeps_heap self memory stream w :
  heap (snd (get_ipc_handle self memory stream w)) = heap w.
Proof.
  unfold get_ipc_handle, bind, extern, query.
  destruct (cuIpcGetMemHandle (owner_handle memory) (ext w))
    as [[written | e] x1]; simpl; [| reflexivity].
  by destruct (rmm_getallocationoffset (device_ctypes_pointer memory)
                 stream x1) as [[offset | e] x2].
Qed.

(** X18: when both collaborator calls return, [get_ipc_handle] has
    made exactly two calls, in this order: the driver is asked for the
    handle of the memory's owner, and the pool allocator for the offset
    of the memory's own pointer.  For a view into a larger buffer the
    two addresses differ. *)
Theorem get_ipc_handle_call_sequence self memory stream w written x1
    offset x2 :
  cuIpcGetMemHandle (owner_handle memory) (ext w) = (Return written, x1) ->
  rmm_getallocationoffset (device_ctypes_pointer memory) stream x1
  = (Return offset, x2) ->
  calls (snd (get_ipc_handle self memory stream w))
  = calls w ++ [Call_cuIpcGetMemHandle (owner_handle memory);
                Call_rmm_getallocationoffset (mp_handle memory) stream] /\
  ext (snd (get_ipc_handle self memory stream w)) = x2 /\
  (forall base, mp_owner memory = Some base -> owner_handle memory = base) /\
  (mp_owner memory = None -> owner_handle memory = mp_handle memory).
Proof.
  intros Hdrv Hoff. unfold get_ipc_handle, bind, extern, query.
  rewrite Hdrv; simpl. rewrite Hoff; simpl.
  rewrite <- app_assoc. split; [reflexivity |]. split; [reflexivity |].
  unfold owner_handle. split.
  - by intros base ->.
  - by intros ->.
Qed.

(** X19: a failure of either collaborator call leaves [get_ipc_handle]
    as the same exception.  When the driver call raises, the pool
    allocator is never asked for the offset. *)
Theorem get_ipc_handle_failures self memory stream w :
  (forall e x1,
     cuIpcGetMemHandle (owner_handle memory) (ext w) = (Raise e, x1) ->
     fst (get_ipc_handle self memory stream w) = Raise e /\
     calls (snd (get_ipc_handle self memory stream w))
     = calls w ++ [Call_cuIpcGetMemHandle (owner_handle memory)]) /\
  (forall written x1 e x2,
     cuIpcGetMemHandle (owner_handle memory) (ext w)
     = (Return written, x1) ->
     rmm_getallocationoffset (device_ctypes_pointer memory) stream x1
     = (Raise e, x2) ->
     fst (get_ipc_handle self memory stream w) = Raise e).
Proof.
  split.
  - intros e x1 Hdrv. unfold get_ipc_handle, bind, extern, query.
    by rewrite Hdrv.
  - intros written x1 e x2 Hdrv Hoff.
    unfold get_ipc_handle, bind, extern, query.
    rewrite Hdrv; simpl. by rewrite Hoff.
Qed.

(** X21: [rmm_cupy_allocator] never registers the buffer it allocates:
    in every case the Python heap is left as it was, so the buffer is
    kept alive only by the memory object that owns it. *)
Theorem rmm_cupy_allocator_keeps_heap nbytes w :
  heap (snd (rmm_cupy_allocator nbytes w)) = heap w.
Proof.
  unfold rmm_cupy_allocator, bind, extern, query, ret.
  destruct (cupy w); simpl; [| reflexivity].
  destruct (DeviceBuffer_new nbytes 0 (ext w)) as [[buf | e] x'];
    simpl; [| reflexivity].
  by destruct (db_ptr buf =? 0).
Qed.

(** X22: with CuPy present, a failure of the pool allocator leaves
    [rmm_cupy_allocator] as the same exception, after exactly one
    allocation request for [nbytes] on stream 0. *)
Theorem rmm_cupy_allocator_failure nbytes w e x' :
  cupy w = true ->
  DeviceBuffer_new nbytes 0 (ext w) = (Raise e, x') ->
  fst (rmm_cupy_allocator nbytes w) = Raise e /\
  calls (snd (rmm_cupy_allocator nbytes w))
  = calls w ++ [Call_DeviceBuffer nbytes 0] /\
  ext (snd (rmm_cupy_allocator nbytes w)) = x'.
Proof.
  intros Hc Hnew. unfold rmm_cupy_allocator, bind, extern.
  rewrite Hc; simpl. by rewrite Hnew.
Qed.

End HookMore.

(** ** The further properties at sample inputs *)

(** X7 at a registry holding handles 1 and 2. *)
Lemma finalizer_shrinks_by_one_witness :
  size (deref 0%nat (world_of {[ 1 := buf_at 1 8; 2 := buf_at 2 8 ]} pool0))
  = S (size (deref 0%nat
               (snd (finalizer (_make_finalizer 1 0%nat)
                       (world_of {[ 1 := buf_at 1 8; 2 := buf_at 2 8 ]}
                                 pool0))))).
Proof.
  apply (finalizer_shrinks_by_one 1 0%nat
           (world_of {[ 1 := buf_at 1 8; 2 := buf_at 2 8 ]} pool0)).
  apply elem_of_dom. exists (buf_at 1 8). vm_compute. reflexivity.
Defined.


(** X9 at a 16-byte request with one other buffer registered. *)
Lemma memalloc_finalizer_roundtrip_witness :
  exists mem w1 f w2,
    memalloc self0 16 0 (world_of {[ 1 := buf_at 1 8 ]} pool0)
    = (Return mem, w1) /\
    mp_finalizer mem = Some f /\
    finalizer f w1 = (Return tt, w2) /\
    forall r, deref r w2 = deref r (world_of {[ 1 := buf_at 1 8 ]} pool0).
Proof.
  apply (memalloc_finalizer_roundtrip self0 16 0
           (world_of {[ 1 := buf_at 1 8 ]} pool0)
           (buf_at 4096 16) (mkBlockPool 4096 1024 16 true 0 0)).
  - reflexivity.
  - apply not_elem_of_dom. vm_compute. reflexivity.
Defined.

(** X10 at a request whose address, 4096, is already registered. *)
Lemma memalloc_registry_growth_witness :
  fst (memalloc self0 16 0 (world_of {[ 4096 := buf_at 4096 8 ]} pool0))
  = Raise (AssertionError (c_uint64 (db_ptr (buf_at 4096 16)))) /\
  deref (allocations self0)
    (snd (memalloc self0 16 0 (world_of {[ 4096 := buf_at 4096 8 ]} pool0)))
  = deref (allocations self0) (world_of {[ 4096 := buf_at 4096 8 ]} pool0).
Proof.
  destruct (memalloc_registry_growth self0 16 0
              (world_of {[ 4096 := buf_at 4096 8 ]} pool0)
              (buf_at 4096 16) (mkBlockPool 4096 1024 16 true 0 0))
    as (_ & Hcollide).
  - reflexivity.
  - apply Hcollide. apply elem_of_dom. exists (buf_at 4096 8).
    vm_compute. reflexivity.
Defined.

(** X11 at a pool that reports the pointer -8. *)
Lemma memalloc_handle_in_range_witness :
  exists mem,
    fst (memalloc self0 16 0
           (world_of ∅ (mkBlockPool (-8) 1024 0 true 0 0)))
    = Return mem /\
    0 <= mp_handle mem < 2 ^ 64 /\
    (mp_handle mem - db_ptr (buf_at (-8) 16)) mod 2 ^ 64 = 0 /\
    mp_size mem = 16.
Proof.
  apply (memalloc_handle_in_range self0 16 0
           (world_of ∅ (mkBlockPool (-8) 1024 0 true 0 0))
           (buf_at (-8) 16) (mkBlockPool (-8) 1024 16 true 0 0)).
  - reflexivity.
  - apply not_elem_of_dom. vm_compute. reflexivity.
Defined.

(** X12 at a run on the first manager, seen from the second one. *)
Lemma run_other_registry_untouched_witness :
  deref (allocations other0)
    (snd (run self0 [Op_memalloc 16 0; Op_finalizer 4096; Op_reset]
            (∅, world_of2 ∅ {[ 7 := buf_at 7 8 ]} pool0)))
  = deref (allocations other0)
      (snd (∅ : gset Z, world_of2 ∅ {[ 7 := buf_at 7 8 ]} pool0)).
Proof.
  apply (run_other_registry_untouched self0
           [Op_memalloc 16 0; Op_finalizer 4096; Op_reset]
           (∅, world_of2 ∅ {[ 7 := buf_at 7 8 ]} pool0)
           (allocations other0)).
  discriminate.
Defined.

(** X13 at a run from a new manager. *)
Lemma run_registry_is_live_witness :
  dom (deref (allocations self0)
         (snd (run self0 [Op_memalloc 16 0; Op_memalloc 2000 0;
                          Op_memalloc 8 0; Op_finalizer 4096]
                 (∅, world_of ∅ pool0))))
  = fst (run self0 [Op_memalloc 16 0; Op_memalloc 2000 0;
                    Op_memalloc 8 0; Op_finalizer 4096]
           (∅, world_of ∅ pool0)).
Proof.
  apply (run_registry_is_live self0
           [Op_memalloc 16 0; Op_memalloc 2000 0; Op_memalloc 8 0;
            Op_finalizer 4096]
           (∅, world_of ∅ pool0)).
  vm_compute. reflexivity.
Defined.

(** X15 at a registry holding two buffers before the reset. *)
Lemma memalloc_after_reset_witness :
  deref (allocations self0)
    (snd (then_ (reset self0) (memalloc self0 16 0)
            (world_of {[ 1 := buf_at 1 8; 2 := buf_at 2 8 ]} pool0)))
  = {[ c_uint64 (db_ptr (buf_at 4096 16)) := buf_at 4096 16 ]}.
Proof.
  apply (memalloc_after_reset self0 16 0
           (world_of {[ 1 := buf_at 1 8; 2 := buf_at 2 8 ]} pool0)
           (buf_at 4096 16) (mkBlockPool 4096 1024 16 true 0 0)).
  reflexivity.
Defined.

(** X16 at a finalizer made for address 4096 before the pool handed
    that address out again, with handle 4096 no longer registered. *)
Lemma stale_finalizer_releases_new_allocation_witness :
  exists mem w1 w2,
    memalloc self0 16 0 (world_of {[ 1 := buf_at 1 8 ]} pool0)
    = (Return mem, w1) /\
    deref (allocations self0) w1 !! mp_handle mem = Some (buf_at 4096 16) /\
    mp_finalizer mem = Some (_make_finalizer 4096 (allocations self0)) /\
    finalizer (_make_finalizer 4096 (allocations self0)) w1
    = (Return tt, w2) /\
    deref (allocations self0) w2 !! mp_handle mem = None.
Proof.
  apply (stale_finalizer_releases_new_allocation self0 16 0
           (world_of {[ 1 := buf_at 1 8 ]} pool0)
           (buf_at 4096 16) (mkBlockPool 4096 1024 16 true 0 0) 4096).
  - reflexivity.
  - reflexivity.
  - apply not_elem_of_dom. vm_compute. reflexivity.
Defined.

(** X18 at a view: the driver is asked about address 4096, the pool
    allocator about address 4100. *)
Lemma get_ipc_handle_call_sequence_witness :
  calls (snd (get_ipc_handle self0 view0 0 (world_of ∅ pool0)))
  = calls (world_of ∅ pool0)
    ++ [Call_cuIpcGetMemHandle (owner_handle view0);
        Call_rmm_getallocationoffset (mp_handle view0) 0] /\
  ext (snd (get_ipc_handle self0 view0 0 (world_of ∅ pool0))) = pool0 /\
  (forall base, mp_owner view0 = Some base -> owner_handle view0 = base) /\
  (mp_owner view0 = None -> owner_handle view0 = mp_handle view0).
Proof.
  apply (get_ipc_handle_call_sequence self0 view0 0 (world_of ∅ pool0)
           (replicate 64 x01) pool0 4 pool0).
  - reflexivity.
  - reflexivity.
Defined.

(** X19 at a driver that refuses the export. *)
Lemma get_ipc_handle_failures_witness :
  fst (get_ipc_handle self0 view0 0
         (mkWorld ∅ (no_ipc pool0) [] true true))
  = Raise (RuntimeError "CUDA_ERROR_INVALID_VALUE") /\
  calls (snd (get_ipc_handle self0 view0 0
                (mkWorld ∅ (no_ipc pool0) [] true true)))
  = calls (mkWorld ∅ (no_ipc pool0) [] true true)
    ++ [Call_cuIpcGetMemHandle (owner_handle view0)].
Proof.
  apply (proj1 (get_ipc_handle_failures self0 view0 0
                  (mkWorld ∅ (no_ipc pool0) [] true true))
           (RuntimeError "CUDA_ERROR_INVALID_VALUE") (no_ipc pool0)).
  reflexivity.
Defined.

(** X22 at a 2000-byte request against the 1024-byte pool. *)
Lemma rmm_cupy_allocator_failure_witness :
  fst (rmm_cupy_allocator 2000 (world_of ∅ pool0))
  = Raise (MemoryError "std::bad_alloc") /\
  calls (snd (rmm_cupy_allocator 2000 (world_of ∅ pool0)))
  = calls (world_of ∅ pool0) ++ [Call_DeviceBuffer 2000 0] /\
  ext (snd (rmm_cupy_allocator 2000 (world_of ∅ pool0))) = pool0.
Proof.
  apply (rmm_cupy_allocator_failure 2000 (world_of ∅ pool0)
           (MemoryError "std::bad_alloc") pool0).
  - reflexivity.
  - reflexivity.
Defined.
